(** * Diode laboratory back end ([app.py])

    A shallow embedding of the physics engine ([DiodePhysics]), of the two
    services built on it ([measure], [sweep]) and of the mystery game
    ([start_mystery], [submit_guess]), followed by the properties of the
    specification that were checked against it.

    Numbers.  A Python [float] is read as a real number: [+], [*], [/],
    [abs], [np.exp] and [2 ** x] are the operations of [R] ([Rpower 2 x] for
    the power).  Rounding error, overflow and the IEEE special values are
    outside this reading.  At -273.15 degrees Celsius the thermal voltage
    is zero and the quotient [v / (n * vt)] has no meaning here; it is
    written like any other, and every statement that draws a conclusion
    from its value assumes a temperature above absolute zero.

    Randomness.  The value drawn by [np.random.uniform] and the option
    picked by [random.choice] are arguments of the functions that draw
    them. *)

From Stdlib Require Import Reals Lra Lia List String ZArith Bool.
Import ListNotations.

Open Scope string_scope.
Open Scope R_scope.

(** ** Python values that reach the handlers through a JSON body *)

Inductive pyval : Type :=
| PyNone
| PyBool (b : bool)
| PyNum (x : R)
| PyStr (s : string).

(** [a == 'literal']: only a string equal to the literal compares equal. *)
Definition py_eq_str (a : pyval) (s : string) : bool :=
  match a with
  | PyStr t => String.eqb t s
  | _ => false
  end.

(** [a in [s1; ...; sk]] for a list of string literals. *)
Definition py_in_strs (a : pyval) (l : list string) : bool :=
  existsb (py_eq_str a) l.

(** ** Exceptions and the error monad of the handlers *)

Inductive exn : Type :=
| AttributeError (attr : string)
| ValueError (msg : string).

Definition result (A : Type) : Type := (exn + A)%type.

Definition Ok {A : Type} (a : A) : result A := inr a.
Definition Raise {A : Type} (e : exn) : result A := inl e.

Definition bind {A B : Type} (m : result A) (k : A -> result B) : result B :=
  match m with
  | inl e => inl e
  | inr a => k a
  end.

Notation "x <- m ;; k" := (bind m (fun x => k))
  (at level 61, m at next level, right associativity).

(** ** The part of numpy that the program uses *)

(** A 0-d value (a Python float after [np.asarray]) or a 1-d array. *)
Inductive ndarray (A : Type) : Type :=
| Scalar (x : A)
| Array (xs : list A).

Arguments Scalar {A} x.
Arguments Array {A} xs.

Definition nd_map {A B : Type} (f : A -> B) (a : ndarray A) : ndarray B :=
  match a with
  | Scalar x => Scalar (f x)
  | Array xs => Array (map f xs)
  end.

(** Binary element-wise operation with broadcasting of a 0-d operand.  Two
    1-d operands are paired position by position; in this program they
    always have the same length. *)
Definition nd_map2 {A B C : Type} (f : A -> B -> C)
    (a : ndarray A) (b : ndarray B) : ndarray C :=
  match a, b with
  | Scalar x, Scalar y => Scalar (f x y)
  | Scalar x, Array ys => Array (map (f x) ys)
  | Array xs, Scalar y => Array (map (fun x => f x y) xs)
  | Array xs, Array ys =>
      Array (map (fun p => f (fst p) (snd p)) (combine xs ys))
  end.

Definition Rltb (x y : R) : bool := if Rlt_dec x y then true else false.

(** [np.clip(x, lo, hi)] is [minimum(maximum(x, lo), hi)]. *)
Definition clip (x lo hi : R) : R := Rmin (Rmax x lo) hi.

Definition np_clip (a : ndarray R) (lo hi : R) : ndarray R :=
  nd_map (fun x => clip x lo hi) a.

Definition np_exp (a : ndarray R) : ndarray R := nd_map exp a.
Definition np_abs (a : ndarray R) : ndarray R := nd_map Rabs a.

(** [np.where(c, a, b)]: per element, [a] where [c] holds and [b] elsewhere. *)
Definition np_where (c : ndarray bool) (a b : ndarray R) : ndarray R :=
  nd_map2 (fun (ci : bool) (ab : R * R) => if ci then fst ab else snd ab)
          c (nd_map2 pair a b).

(** ** Physics engine *)

Definition BOLTZMANN_K : R := 1.380649e-23.
Definition ELECTRON_Q : R := 1.60217663e-19.

Module DiodePhysics.

(** The instance attributes.  [Is] and [n] are assigned only inside the
    material branches of the constructor, so they may be missing. *)
Record t : Type := mk {
  temp_k : R;
  vt : R;
  breakdown : R;
  slope : R;
  Is : option R;
  n : option R
}.

Definition set_breakdown (x : R) (self : t) : t :=
  mk (temp_k self) (vt self) x (slope self) (Is self) (n self).
Definition set_slope (x : R) (self : t) : t :=
  mk (temp_k self) (vt self) (breakdown self) x (Is self) (n self).
Definition set_Is (x : R) (self : t) : t :=
  mk (temp_k self) (vt self) (breakdown self) (slope self) (Some x) (n self).
Definition set_n (x : R) (self : t) : t :=
  mk (temp_k self) (vt self) (breakdown self) (slope self) (Is self) (Some x).

(** [self.Is] and [self.n]: reading a missing attribute raises. *)
Definition get_Is (self : t) : result R :=
  match Is self with
  | Some x => Ok x
  | None => Raise (AttributeError "Is")
  end.
Definition get_n (self : t) : result R :=
  match n self with
  | Some x => Ok x
  | None => Raise (AttributeError "n")
  end.

(** [__init__(self, material, temp_c, zener_v=5.1)] *)
Definition init (material : pyval) (temp_c zener_v : R) : t :=
  let temp_k := temp_c + 273.15 in
  let vt := (BOLTZMANN_K * temp_k) / ELECTRON_Q in
  let self := mk temp_k vt (-50.0) 10.0 None None in
  if py_eq_str material "Si" then
    set_breakdown (-50.0)
      (set_n 1.5 (set_Is (1e-12 * Rpower 2 ((temp_c - 27) / 10.0)) self))
  else if py_eq_str material "Ge" then
    set_breakdown (-20.0)
      (set_n 1.0 (set_Is (1e-6 * Rpower 2 ((temp_c - 27) / 10.0)) self))
  else if py_eq_str material "RedLED" then
    set_breakdown (-5.0) (set_n 2.0 (set_Is 1e-18 self))
  else if py_eq_str material "BlueLED" then
    set_breakdown (-5.0) (set_n 3.5 (set_Is 1e-24 self))
  else if py_eq_str material "Zener" then
    set_slope 0.5
      (set_breakdown (- zener_v)
        (set_n 1.5 (set_Is (1e-12 * Rpower 2 ((temp_c - 27) / 10.0)) self)))
  else self.

(** [compute(self, voltage)].  Attributes are read in the order in which
    the expressions of the body evaluate them.  A 0-d result is handed back
    as a float and a 1-d one as the array: [Scalar] and [Array] here. *)
Definition compute (self : t) (voltage : ndarray R) : result (ndarray R) :=
  let v := voltage in
  n_ <- get_n self ;;
  let exponent := np_clip (nd_map (fun x => x / (n_ * vt self)) v) (-50) 50 in
  Is_ <- get_Is self ;;
  let i_shockley := nd_map (fun e => Is_ * (e - 1)) (np_exp exponent) in
  let i_breakdown :=
    nd_map (fun a => - slope self * (a - Rabs (breakdown self))) (np_abs v) in
  let current :=
    np_where (nd_map (fun x => Rltb x (breakdown self)) v)
             i_breakdown i_shockley in
  Ok current.

End DiodePhysics.

(** The five materials the constructor recognises, and their literals. *)
Inductive Material : Type := Si | Ge | RedLED | BlueLED | Zener.

Definition material_name (m : Material) : string :=
  match m with
  | Si => "Si"
  | Ge => "Ge"
  | RedLED => "RedLED"
  | BlueLED => "BlueLED"
  | Zener => "Zener"
  end.

Definition recognized (material : pyval) : bool :=
  py_in_strs material ["Si"; "Ge"; "RedLED"; "BlueLED"; "Zener"].

(** ** numpy and built-in helpers of the two services *)

(** [np.linspace(start, stop, num)] with the end point included: the step
    is [(stop - start) / (num - 1)], sample [i] is [i * step + start], and
    the last sample is set to [stop] itself. *)
Definition linspace (start stop : R) (num : nat) : list R :=
  match num with
  | O => []
  | S O => [start]
  | S div =>
      let step := (stop - start) / INR div in
      map (fun i => INR i * step + start) (seq 0 div) ++ [stop]
  end.

(** Nearest integer, ties to the even one ([np.rint]). *)
Definition rint (x : R) : Z :=
  let f := Zfloor x in
  let d := x - IZR f in
  if Rlt_dec d (1 / 2) then f
  else if Rlt_dec (1 / 2) d then (f + 1)%Z
  else if Z.even f then f else (f + 1)%Z.

(** [round(x, ndigits)] on a numpy float: scale, round to the nearest
    integer, scale back. *)
Definition py_round (x : R) (ndigits : nat) : R :=
  IZR (rint (x * 10 ^ ndigits)) / 10 ^ ndigits.

(** [a.argmin()]: the first position that holds the least element.  The
    scan keeps the best value seen so far and replaces it only by a
    strictly smaller one. *)
Fixpoint argmin_from (best : R) (besti i : nat) (l : list R) : nat :=
  match l with
  | [] => besti
  | x :: t =>
      if Rlt_dec x best then argmin_from x i (S i) t
      else argmin_from best besti (S i) t
  end.

Definition argmin (l : list R) : nat :=
  match l with
  | [] => O
  | x :: t => argmin_from x 0 1 t
  end.

(** [a.tolist()]: a Python float has no such method. *)
Definition tolist (a : ndarray R) : result (list R) :=
  match a with
  | Array xs => Ok xs
  | Scalar _ => Raise (AttributeError "tolist")
  end.

(** The truth value of a comparison on an array is refused by numpy; on a
    float the comparison is the float's. *)
Definition item (a : ndarray R) : result R :=
  match a with
  | Scalar x => Ok x
  | Array _ => Raise (ValueError "truth value of an array is ambiguous")
  end.

Fixpoint zip3 {A B C : Type} (xs : list A) (ys : list B) (zs : list C)
  : list (A * B * C) :=
  match xs, ys, zs with
  | x :: xs', y :: ys', z :: zs' => (x, y, z) :: zip3 xs' ys' zs'
  | _, _, _ => []
  end.

(** ** [/api/measure] *)

Record measure_response : Type := mk_measure {
  m_voltage : R;
  m_current : R;
  m_power : R;
  m_status : string;
  m_saturation : R;
  m_breakdown : R
}.

(** [measure()], on the decoded fields of the body; [noise] is the value
    drawn by [np.random.uniform(-0.005, 0.005)]. *)
Definition measure (mat : pyval) (temp v : R) (noise : R)
  : result measure_response :=
  let sim := DiodePhysics.init mat temp 5.1 in
  i_nd <- DiodePhysics.compute sim (Scalar v) ;;
  i <- item i_nd ;;
  let final_i := i + (i * noise) in
  let power := v * final_i in
  let limit := if py_in_strs mat ["RedLED"; "BlueLED"] then 0.05 else 0.5 in
  let status :=
    if Rle_dec (Rabs power) limit then "OPTIMAL" else "BURNT (Overheat)" in
  Is_ <- DiodePhysics.get_Is sim ;;
  Ok (mk_measure v final_i power status Is_ (DiodePhysics.breakdown sim)).

(** ** [/api/sweep] *)

Record sample : Type := mk_sample { s_v : R; s_i : R; s_p : R }.
Record saddle : Type := mk_saddle { sd_v : R; sd_i : R }.

Record sweep_response : Type := mk_sweep {
  sw_data : list sample;
  sw_saddle : saddle;
  sw_saturation : R;
  sw_breakdown : R
}.

(** The threshold of the knee search. *)
Definition threshold_of (mat : pyval) : R :=
  if py_eq_str mat "Ge" then 0.0005 else 0.001.

(** [sweep()], on the decoded fields of the body. *)
Definition sweep (mat : pyval) (start end_ temp : R) : result sweep_response :=
  let sim := DiodePhysics.init mat temp 5.1 in
  let voltages := linspace start end_ 300 in
  currents <- DiodePhysics.compute sim (Array voltages) ;;
  let powers := nd_map2 Rmult (Array voltages) currents in
  currents_l <- tolist currents ;;
  powers_l <- tolist powers ;;
  let results :=
    map (fun vip : R * R * R =>
           mk_sample (py_round (fst (fst vip)) 3) (snd (fst vip)) (snd vip))
        (zip3 voltages currents_l powers_l) in
  let threshold := threshold_of mat in
  let idx := argmin (map (fun c => Rabs (c - threshold)) currents_l) in
  let saddle_point :=
    mk_saddle (py_round (nth idx voltages 0) 3) (nth idx currents_l 0) in
  Is_ <- DiodePhysics.get_Is sim ;;
  Ok (mk_sweep results saddle_point Is_ (DiodePhysics.breakdown sim)).

(** ** Mystery mode *)

(** The module-level variable [current_mystery]: [None] until a game is
    started, then one of the option strings. *)
Definition mystery_state : Type := option string.

Definition current_mystery_initial : mystery_state := None.

Definition options : list string := ["Si"; "Ge"; "RedLED"; "BlueLED"; "Zener"].

Record guess_response : Type := mk_guess {
  g_result : string;
  g_actual : option string
}.

(** [start_mystery()]; [pick] is the position chosen by [random.choice]. *)
Definition start_mystery (pick : nat) (current_mystery : mystery_state)
  : string * mystery_state :=
  ("Mystery Mode Started", Some (nth (pick mod 5) options "Si")).

(** [user_guess == current_mystery]: [None] equals [None], a string equals
    the same string, and values of different kinds are unequal. *)
Definition py_eq_mystery (user_guess : pyval) (current_mystery : mystery_state)
  : bool :=
  match user_guess, current_mystery with
  | PyNone, None => true
  | PyStr s, Some t => String.eqb s t
  | _, _ => false
  end.

(** [submit_guess()]; [user_guess] is [request.json.get('guess')]. *)
Definition submit_guess (user_guess : pyval) (current_mystery : mystery_state)
  : guess_response * mystery_state :=
  if py_eq_mystery user_guess current_mystery then
    (mk_guess "CORRECT" current_mystery, current_mystery)
  else
    (mk_guess "WRONG" current_mystery, current_mystery).

(** ** Request bodies

    [request.json] of a handler is a JSON object, a Python dict: here the
    list of its bindings, the first binding of a key being the dict's.  The
    values of the fields are those of [pyval]: null, booleans, numbers and
    strings. *)

Definition dict : Type := list (string * pyval).

(** [data.get(key, default)] *)
Fixpoint dict_get (data : dict) (key : string) (default : pyval) : pyval :=
  match data with
  | [] => default
  | (k, v) :: rest =>
      if String.eqb k key then v else dict_get rest key default
  end.

(** What a handler can raise: the two errors of [float(...)] on a field of
    the body, or an exception of the code behind it. *)
Inductive request_error : Type :=
| TypeError (msg : string)
| FloatValueError (literal : string)
| HandlerError (e : exn).

Definition reply (A : Type) : Type := (request_error + A)%type.

Definition lift {A : Type} (m : result A) : reply A :=
  match m with
  | inl e => inl (HandlerError e)
  | inr a => inr a
  end.

(** [float(a)] on a value of the body.  [None] is refused, a boolean is 1
    or 0, a number is itself; a string is read as a float literal by
    [float_of_str], the reader of Python, which refuses what is not one. *)
Definition py_float (float_of_str : string -> option R) (a : pyval) : reply R :=
  match a with
  | PyNone =>
      inl (TypeError
        "float() argument must be a string or a real number, not 'NoneType'")
  | PyBool b => inr (if b then 1 else 0)
  | PyNum x => inr x
  | PyStr s =>
      match float_of_str s with
      | Some x => inr x
      | None => inl (FloatValueError s)
      end
  end.

Definition reply_bind {A B : Type} (m : reply A) (k : A -> reply B) : reply B :=
  match m with
  | inl e => inl e
  | inr a => k a
  end.

(** The head of [measure()]: the three fields with their defaults, decoded
    in the order of the source, then the computation. *)
Definition measure_request (float_of_str : string -> option R)
    (data : dict) (noise : R) : reply measure_response :=
  let mat := dict_get data "material" (PyStr "Si") in
  reply_bind (py_float float_of_str (dict_get data "temp" (PyNum 27)))
    (fun temp =>
  reply_bind (py_float float_of_str (dict_get data "voltage" (PyNum 0)))
    (fun v =>
  lift (measure mat temp v noise))).

(** The head of [sweep()]. *)
Definition sweep_request (float_of_str : string -> option R) (data : dict)
  : reply sweep_response :=
  let mat := dict_get data "material" (PyStr "Si") in
  reply_bind (py_float float_of_str (dict_get data "start" (PyNum (-2))))
    (fun start =>
  reply_bind (py_float float_of_str (dict_get data "end" (PyNum 1.5)))
    (fun end_ =>
  reply_bind (py_float float_of_str (dict_get data "temp" (PyNum 27)))
    (fun temp =>
  lift (sweep mat start end_ temp)))).

(** The head of [submit_guess()]: [request.json.get('guess')]. *)
Definition submit_guess_request (data : dict) (current_mystery : mystery_state)
  : guess_response * mystery_state :=
  submit_guess (dict_get data "guess" PyNone) current_mystery.

(** ** The model of the specification *)

Module Spec.

(** The derived parameters of section 3 of the specification. *)
Record DiodeParameters : Type := mk_params {
  saturationCurrent : R;
  emissionCoefficient : R;
  thermalVoltage : R;
  breakdownVoltage : R;
  breakdownSlope : R
}.

(** The parameters held by a constructed object, when all are assigned. *)
Definition params_of (self : DiodePhysics.t) : option DiodeParameters :=
  match DiodePhysics.Is self, DiodePhysics.n self with
  | Some Is_, Some n_ =>
      Some (mk_params Is_ n_ (DiodePhysics.vt self)
              (DiodePhysics.breakdown self) (DiodePhysics.slope self))
  | _, _ => None
  end.

(** The two branches of [evaluate], steps 1 to 3 of section 4.1. *)
Definition exponent_of (p : DiodeParameters) (voltage : R) : R :=
  clip (voltage / (emissionCoefficient p * thermalVoltage p)) (-50) 50.

Definition shockleyCurrent (p : DiodeParameters) (voltage : R) : R :=
  saturationCurrent p * (exp (exponent_of p voltage) - 1).

Definition breakdownCurrent (p : DiodeParameters) (voltage : R) : R :=
  - breakdownSlope p * (Rabs voltage - Rabs (breakdownVoltage p)).

(** Step 4: the selection. *)
Definition evaluate (p : DiodeParameters) (voltage : R) : R :=
  if Rlt_dec voltage (breakdownVoltage p) then breakdownCurrent p voltage
  else shockleyCurrent p voltage.

(** The table of section 4.1: the parameters derived for a material. *)
Definition deriveParameters (m : Material) (temperatureCelsius zenerVoltage : R)
  : DiodeParameters :=
  let scale := Rpower 2 ((temperatureCelsius - 27) / 10) in
  let thermalVoltage :=
    BOLTZMANN_K * (temperatureCelsius + 273.15) / ELECTRON_Q in
  match m with
  | Si => mk_params (1e-12 * scale) 1.5 thermalVoltage (-50) 10
  | Ge => mk_params (1e-6 * scale) 1 thermalVoltage (-20) 10
  | RedLED => mk_params 1e-18 2 thermalVoltage (-5) 10
  | BlueLED => mk_params 1e-24 3.5 thermalVoltage (-5) 10
  | Zener => mk_params (1e-12 * scale) 1.5 thermalVoltage (- zenerVoltage) 0.5
  end.

(** The overheat limit of section 4.2. *)
Definition limit_of (m : Material) : R :=
  match m with
  | RedLED | BlueLED => 0.05
  | _ => 0.5
  end.

(** The knee threshold of section 4.3. *)
Definition threshold (m : Material) : R :=
  match m with
  | Ge => 0.0005
  | _ => 0.001
  end.

End Spec.

(** * Properties *)

(** ** Element-wise operations *)

Lemma combine_map_same {A B C : Type} (f : A -> B) (g : A -> C) (l : list A) :
  combine (map f l) (map g l) = map (fun x => (f x, g x)) l.
Proof.
  induction l as [|x l IH]; simpl; [reflexivity|].
  now rewrite IH.
Qed.

Lemma np_where_pointwise {A : Type} (c : A -> bool) (f g : A -> R)
    (a : ndarray A) :
  np_where (nd_map c a) (nd_map f a) (nd_map g a)
  = nd_map (fun x => if c x then f x else g x) a.
Proof.
  destruct a as [x|xs]; unfold np_where; simpl; [reflexivity|].
  f_equal.
  rewrite combine_map_same, map_map, combine_map_same, map_map.
  reflexivity.
Qed.

Lemma nd_map_map {A B C : Type} (f : A -> B) (g : B -> C) (a : ndarray A) :
  nd_map g (nd_map f a) = nd_map (fun x => g (f x)) a.
Proof.
  destruct a; simpl; [reflexivity|].
  now rewrite map_map.
Qed.

Lemma nd_map_ext {A B : Type} (f g : A -> B) (a : ndarray A) :
  (forall x, f x = g x) -> nd_map f a = nd_map g a.
Proof.
  intros H; destruct a; simpl; [now rewrite H|].
  f_equal; apply map_ext; exact H.
Qed.

Lemma Rltb_dec (x y : R) (A : Type) (a b : A) :
  (if Rltb x y then a else b) = (if Rlt_dec x y then a else b).
Proof. unfold Rltb; destruct (Rlt_dec x y); reflexivity. Qed.



(** ** The constructor and [compute] *)

Lemma mk_params_eq (a b c d e a' b' c' d' e' : R) :
  a = a' -> b = b' -> c = c' -> d = d' -> e = e' ->
  Some (Spec.mk_params a b c d e) = Some (Spec.mk_params a' b' c' d' e').
Proof. intros; subst; reflexivity. Qed.

Lemma scale_literal (c temp_c : R) :
  c * Rpower 2 ((temp_c - 27) / 10.0) = c * Rpower 2 ((temp_c - 27) / 10).
Proof. do 2 f_equal; lra. Qed.

(** For a recognised material the object holds the parameters of the table. *)
Lemma init_params (m : Material) (temp_c zener_v : R) :
  Spec.params_of (DiodePhysics.init (PyStr (material_name m)) temp_c zener_v)
  = Some (Spec.deriveParameters m temp_c zener_v).
Proof.
  destruct m; unfold DiodePhysics.init, Spec.params_of, Spec.deriveParameters;
    simpl; apply mk_params_eq; try lra; apply scale_literal.
Qed.

(** Once both attributes are there, [compute] is the selection of the
    specification applied to every element of its argument. *)
Lemma compute_pointwise (self : DiodePhysics.t) (p : Spec.DiodeParameters)
    (voltage : ndarray R) :
  Spec.params_of self = Some p ->
  DiodePhysics.compute self voltage = Ok (nd_map (Spec.evaluate p) voltage).
Proof.
  unfold Spec.params_of, DiodePhysics.compute.
  unfold DiodePhysics.get_n, DiodePhysics.get_Is.
  destruct (DiodePhysics.Is self) as [Is_|]; [|discriminate].
  destruct (DiodePhysics.n self) as [n_|]; [|discriminate].
  intros [= <-]; simpl.
  unfold np_exp, np_abs, np_clip.
  rewrite !nd_map_map.
  rewrite np_where_pointwise.
  f_equal; apply nd_map_ext; intros x.
  rewrite Rltb_dec.
  reflexivity.
Qed.


(** ** Unrecognised materials *)

Lemma recognized_false (material : pyval) :
  recognized material = false ->
  py_eq_str material "Si" = false /\ py_eq_str material "Ge" = false /\
  py_eq_str material "RedLED" = false /\ py_eq_str material "BlueLED" = false /\
  py_eq_str material "Zener" = false.
Proof.
  unfold recognized, py_in_strs; simpl.
  destruct (py_eq_str material "Si"), (py_eq_str material "Ge"),
    (py_eq_str material "RedLED"), (py_eq_str material "BlueLED"),
    (py_eq_str material "Zener"); simpl; intros H; try discriminate H;
    repeat split; reflexivity.
Qed.



(** C10.  For a material outside the five recognised ones the constructor
    assigns [temp_k], [vt], [breakdown] (the default -50) and [slope] (the
    default 10) and nothing else: [Is] and [n] stay unassigned, and every
    later [compute], on a scalar or on an array, raises the attribute error
    of the first missing attribute it reads. *)
Theorem init_unrecognized_leaves_Is_n_unassigned
    (material : pyval) (temp_c zener_v : R) :
  recognized material = false ->
  let self := DiodePhysics.init material temp_c zener_v in
  DiodePhysics.temp_k self = temp_c + 273.15 /\
  DiodePhysics.vt self = BOLTZMANN_K * (temp_c + 273.15) / ELECTRON_Q /\
  DiodePhysics.breakdown self = -50 /\
  DiodePhysics.slope self = 10 /\
  DiodePhysics.Is self = None /\
  DiodePhysics.n self = None /\
  forall voltage : ndarray R,
    DiodePhysics.compute self voltage = Raise (AttributeError "n").
Proof.
  intros H self.
  destruct (recognized_false material H) as (H1 & H2 & H3 & H4 & H5).
  subst self; unfold DiodePhysics.init.
  rewrite H1, H2, H3, H4, H5; simpl.
  repeat split; try reflexivity; lra.
Qed.

Lemma init_unrecognized_witness :
  recognized (PyStr "GaAs") = false /\
  DiodePhysics.compute (DiodePhysics.init (PyStr "GaAs") 27 5.1) (Scalar 0.7)
  = Raise (AttributeError "n").
Proof.
  split; [reflexivity|].
  apply (init_unrecognized_leaves_Is_n_unassigned (PyStr "GaAs") 27 5.1).
  reflexivity.
Defined.

(** C4.  What the constructor does on the unrecognised material ["GaAs"]:
    it returns an object, with the defaults for the breakdown voltage and
    the slope and with [Is] and [n] missing; no error is reported at
    construction.  The failure only surfaces in the handler that goes on to
    compute, as the attribute error of [n]. *)
Theorem init_GaAs_returns_object :
  DiodePhysics.init (PyStr "GaAs") 27 5.1
  = DiodePhysics.mk (27 + 273.15) (BOLTZMANN_K * (27 + 273.15) / ELECTRON_Q)
      (-50.0) 10.0 None None /\
  Spec.params_of (DiodePhysics.init (PyStr "GaAs") 27 5.1) = None /\
  (forall noise : R,
     measure (PyStr "GaAs") 27 0.7 noise = Raise (AttributeError "n")).
Proof.
  split; [reflexivity|].
  split; [reflexivity|].
  intros noise; reflexivity.
Qed.

(** ** Mystery mode *)

(** C8.  Before any [start_mystery] the slot holds [None]; a guess is then
    compared with [None] and a comparison result comes back: ["WRONG"] for
    every string, and ["CORRECT"] when the body carries no guess. *)
Theorem submit_guess_before_start :
  submit_guess PyNone current_mystery_initial
    = (mk_guess "CORRECT" None, None) /\
  forall s : string,
    submit_guess (PyStr s) current_mystery_initial
    = (mk_guess "WRONG" None, None).
Proof. split; [reflexivity | intros s; reflexivity]. Qed.

(** C9.  With material [m] in the slot, [submit_guess] answers ["CORRECT"]
    exactly when the guess is the string [m] and ["WRONG"] otherwise, always
    reports [m] as the actual material, and leaves the slot as it was. *)
Theorem submit_guess_stored (m : string) (user_guess : pyval) :
  let r := fst (submit_guess user_guess (Some m)) in
  snd (submit_guess user_guess (Some m)) = Some m /\
  g_actual r = Some m /\
  (g_result r = "CORRECT" <-> user_guess = PyStr m) /\
  (g_result r = "WRONG" <-> user_guess <> PyStr m).
Proof.
  unfold submit_guess, py_eq_mystery.
  destruct user_guess as [| b | x | s]; simpl;
    try (repeat split; try reflexivity; try discriminate; congruence).
  destruct (String.eqb_spec s m) as [->|Hne]; simpl.
  - repeat split; try reflexivity; try discriminate; congruence.
  - repeat split; try reflexivity; try discriminate; congruence.
Qed.

(** [start_mystery] always stores one of the five option strings,
    whatever was in the slot. *)
Lemma start_mystery_stores_option (pick : nat) (st : mystery_state) :
  exists m : Material, snd (start_mystery pick st) = Some (material_name m).
Proof.
  change (snd (start_mystery pick st))
    with (Some (nth (pick mod 5) options "Si")).
  assert (H : (pick mod 5 < 5)%nat) by (apply Nat.mod_upper_bound; lia).
  destruct (pick mod 5)%nat as [|[|[|[|[|k]]]]]; simpl.
  - now exists Si.
  - now exists Ge.
  - now exists RedLED.
  - now exists BlueLED.
  - now exists Zener.
  - lia.
Qed.

(** ** Point measurement *)

Lemma params_of_fields (self : DiodePhysics.t) (p : Spec.DiodeParameters) :
  Spec.params_of self = Some p ->
  DiodePhysics.get_Is self = Ok (Spec.saturationCurrent p) /\
  DiodePhysics.breakdown self = Spec.breakdownVoltage p.
Proof.
  unfold Spec.params_of, DiodePhysics.get_Is.
  destruct (DiodePhysics.Is self); [|discriminate].
  destruct (DiodePhysics.n self); [|discriminate].
  intros [= <-]; simpl; split; reflexivity.
Qed.

Lemma measure_limit (m : Material) :
  (if py_in_strs (PyStr (material_name m)) ["RedLED"; "BlueLED"]
   then 0.05 else 0.5) = Spec.limit_of m.
Proof. destruct m; reflexivity. Qed.

(** The response of [measure] for a recognised material. *)
Lemma measure_ok (m : Material) (temp v noise : R) :
  let p := Spec.deriveParameters m temp 5.1 in
  let i := Spec.evaluate p v in
  let final_i := i + i * noise in
  let power := v * final_i in
  measure (PyStr (material_name m)) temp v noise
  = Ok (mk_measure v final_i power
          (if Rle_dec (Rabs power) (Spec.limit_of m)
           then "OPTIMAL" else "BURNT (Overheat)")
          (Spec.saturationCurrent p) (Spec.breakdownVoltage p)).
Proof.
  intros p i final_i power.
  pose proof (init_params m temp 5.1) as Hp; fold p in Hp.
  destruct (params_of_fields _ _ Hp) as [HIs Hbd].
  unfold measure.
  rewrite (compute_pointwise _ p (Scalar v) Hp).
  cbn [bind Ok nd_map item].
  rewrite HIs, Hbd, measure_limit.
  reflexivity.
Qed.


(** ** The voltage grid *)

Lemma linspace_length (a b : R) (num : nat) :
  List.length (linspace a b num) = num.
Proof.
  destruct num as [|[|d]]; try reflexivity.
  change (linspace a b (S (S d)))
    with ((map (fun i => INR i * ((b - a) / INR (S d)) + a) (seq 0 (S d))
           ++ [b])%list).
  rewrite length_app, length_map, length_seq; simpl; lia.
Qed.

Lemma nth_error_seq0 (len i : nat) :
  (i < len)%nat -> nth_error (seq 0 len) i = Some i.
Proof.
  intros H.
  rewrite (nth_error_nth' _ O) by (rewrite length_seq; exact H).
  now rewrite seq_nth.
Qed.

(** Every sample of the grid, the last one included, is
    [start + i * step]. *)
Lemma linspace_nth_error (a b : R) (d i : nat) :
  (i <= S d)%nat ->
  nth_error (linspace a b (S (S d))) i
  = Some (a + INR i * ((b - a) / INR (S d))).
Proof.
  intros Hi.
  change (linspace a b (S (S d)))
    with ((map (fun i => INR i * ((b - a) / INR (S d)) + a) (seq 0 (S d))
           ++ [b])%list).
  assert (Hd : INR (S d) <> 0) by (apply not_0_INR; lia).
  destruct (Nat.eq_dec i (S d)) as [->|Hne].
  - rewrite nth_error_app2 by (rewrite length_map, length_seq; lia).
    rewrite length_map, length_seq, Nat.sub_diag; simpl nth_error.
    f_equal; field; exact Hd.
  - rewrite nth_error_app1 by (rewrite length_map, length_seq; lia).
    rewrite nth_error_map, nth_error_seq0 by lia.
    cbn [option_map]; f_equal; ring.
Qed.

Lemma INR_299 : INR 299 = 299.
Proof. rewrite INR_IZR_INZ; reflexivity. Qed.

(** The grid of a sweep. *)
Lemma voltages_nth_error (start end_ : R) (i : nat) :
  (i < 300)%nat ->
  nth_error (linspace start end_ 300) i
  = Some (start + INR i * ((end_ - start) / 299)).
Proof.
  intros Hi.
  rewrite (linspace_nth_error start end_ 298 i) by lia.
  now rewrite INR_299.
Qed.

(** ** Rounding to three decimals *)





(** ** The knee search *)



(** ** The sweep *)

Lemma zip3_map (f : R -> R) (l : list R) :
  zip3 l (map f l) (map (fun p : R * R => fst p * snd p) (combine l (map f l)))
  = map (fun v => (v, f v, v * f v)) l.
Proof.
  induction l as [|x l IH]; simpl; [reflexivity|].
  now rewrite IH.
Qed.

Lemma threshold_name (m : Material) :
  threshold_of (PyStr (material_name m)) = Spec.threshold m.
Proof. destruct m; reflexivity. Qed.

(** The response of [sweep] for a recognised material. *)
Lemma sweep_ok (m : Material) (start end_ temp : R) :
  let p := Spec.deriveParameters m temp 5.1 in
  let voltages := linspace start end_ 300 in
  let currents := map (Spec.evaluate p) voltages in
  let idx := argmin (map (fun c => Rabs (c - Spec.threshold m)) currents) in
  sweep (PyStr (material_name m)) start end_ temp
  = Ok (mk_sweep
          (map (fun v => mk_sample (py_round v 3) (Spec.evaluate p v)
                           (v * Spec.evaluate p v)) voltages)
          (mk_saddle (py_round (nth idx voltages 0) 3) (nth idx currents 0))
          (Spec.saturationCurrent p) (Spec.breakdownVoltage p)).
Proof.
  intros p voltages currents idx.
  pose proof (init_params m temp 5.1) as Hp; fold p in Hp.
  destruct (params_of_fields _ _ Hp) as [HIs Hbd].
  unfold sweep; fold voltages.
  rewrite (compute_pointwise _ p (Array voltages) Hp).
  cbn [bind Ok nd_map nd_map2 tolist].
  rewrite HIs, Hbd, threshold_name, zip3_map, map_map.
  cbn [bind Ok fst snd].
  reflexivity.
Qed.





(** Sample [i] of the returned data: the grid voltage rounded to three
    decimals, the current at the grid voltage, and their product with the
    voltage not rounded. *)
Lemma sweep_data_nth (m : Material) (start end_ temp : R) (i : nat) :
  (i < 300)%nat ->
  let p := Spec.deriveParameters m temp 5.1 in
  let v := start + INR i * ((end_ - start) / 299) in
  exists r : sweep_response,
    sweep (PyStr (material_name m)) start end_ temp = Ok r /\
    List.length (sw_data r) = 300%nat /\
    nth_error (sw_data r) i
    = Some (mk_sample (py_round v 3) (Spec.evaluate p v)
              (v * Spec.evaluate p v)).
Proof.
  intros Hi p v.
  eexists; split; [apply sweep_ok|]; cbn [sw_data].
  split; [rewrite length_map; apply linspace_length|].
  now rewrite nth_error_map, voltages_nth_error by exact Hi.
Qed.






(** ** The forward region *)








Lemma evaluate_above_breakdown (p : Spec.DiodeParameters) (v : R) :
  Spec.breakdownVoltage p <= v ->
  Spec.evaluate p v = Spec.shockleyCurrent p v.
Proof.
  intros H; unfold Spec.evaluate.
  destruct (Rlt_dec v (Spec.breakdownVoltage p)); [lra | reflexivity].
Qed.

Lemma evaluate_below_breakdown (p : Spec.DiodeParameters) (v : R) :
  v < Spec.breakdownVoltage p ->
  Spec.evaluate p v = Spec.breakdownCurrent p v.
Proof.
  intros H; unfold Spec.evaluate.
  destruct (Rlt_dec v (Spec.breakdownVoltage p)); [reflexivity | lra].
Qed.








(** ** The breakdown boundary *)





(** ** A scenario of the specification *)

(** [measure(Zener, 27, -6)]: the voltage is below the breakdown voltage
    -5.1, the current before noise is [-0.5 * (6 - 5.1) = -0.45], and
    whatever noise within the drawn range is applied the status is
    ["BURNT (Overheat)"]. *)
Lemma measure_zener_reverse_burnt (noise : R) :
  -0.005 <= noise <= 0.005 ->
  exists r : measure_response,
    measure (PyStr "Zener") 27 (-6) noise = Ok r /\
    m_current r = -0.45 + -0.45 * noise /\
    m_status r = "BURNT (Overheat)".
Proof.
  intros Hn.
  assert (Ei : Spec.evaluate (Spec.deriveParameters Zener 27 5.1) (-6) = -0.45).
  { rewrite evaluate_below_breakdown by (simpl; lra).
    unfold Spec.breakdownCurrent; simpl.
    rewrite !Rabs_left by lra. lra. }
  eexists; split; [apply (measure_ok Zener)|].
  cbn [m_current m_status]; rewrite Ei.
  change (Spec.limit_of Zener) with 0.5.
  split; [reflexivity|].
  destruct (Rle_dec _ _) as [Hle|_]; [|reflexivity].
  exfalso.
  rewrite Rabs_right in Hle by nra.
  nra.
Qed.

(** * Further properties of the code *)

(** ** The constructor *)



(** ** The current as a function of the voltage *)





Lemma clip_zero : clip 0 (-50) 50 = 0.
Proof.
  unfold clip. rewrite Rmax_left by lra. apply Rmin_left; lra.
Qed.













(** ** Failure of the two services *)





(** ** Point measurement *)





(** ** Rounding *)



Lemma rint_IZR (k : Z) : rint (IZR k) = k.
Proof.
  unfold rint; rewrite ZfloorZ.
  destruct (Rlt_dec _ _) as [_|H]; [reflexivity|].
  exfalso; apply H; lra.
Qed.

Lemma py_round_3_millis (k : Z) : py_round (IZR k / 1000) 3 = IZR k / 1000.
Proof.
  unfold py_round.
  replace (IZR k / 1000 * 10 ^ 3) with (IZR k) by (simpl; lra).
  rewrite rint_IZR. simpl; lra.
Qed.

(** ** More on the sweep *)










(** ** More on the mystery game *)



Lemma dict_get_absent (data : dict) (key : string) (default : pyval) :
  ~ In key (map fst data) -> dict_get data key default = default.
Proof.
  induction data as [|[k v] rest IH]; simpl; intros H; [reflexivity|].
  destruct (String.eqb_spec k key) as [->|_]; [|apply IH; tauto].
  exfalso; apply H; now left.
Qed.

(** Once a mystery has been started, a guess is answered ["CORRECT"]
    exactly when it is the stored string; in particular a body without a
    ["guess"] key is answered ["WRONG"].  The answer always reveals the
    stored material, and the slot keeps it. *)
Theorem guess_after_start
    (pick : nat) (st : mystery_state) (data : dict) :
  let started := snd (start_mystery pick st) in
  let answer := submit_guess_request data started in
  snd answer = started /\
  g_actual (fst answer) = started /\
  (g_result (fst answer) = "CORRECT" <->
   exists s : string,
     dict_get data "guess" PyNone = PyStr s /\ started = Some s) /\
  (~ In "guess" (map fst data) -> g_result (fst answer) = "WRONG").
Proof.
  intros started answer.
  destruct (start_mystery_stores_option pick st) as [m Hm].
  fold started in Hm.
  unfold answer, submit_guess_request, submit_guess, py_eq_mystery.
  rewrite Hm.
  split; [|split; [|split]].
  - destruct (dict_get data "guess" PyNone) as [| b | x | s];
      try reflexivity.
    destruct (String.eqb s (material_name m)); reflexivity.
  - destruct (dict_get data "guess" PyNone) as [| b | x | s];
      try reflexivity.
    destruct (String.eqb s (material_name m)); reflexivity.
  - destruct (dict_get data "guess" PyNone) as [| b | x | s]; simpl;
      try (split; [discriminate | intros (s' & H & _); discriminate H]).
    destruct (String.eqb_spec s (material_name m)) as [->|Hne]; simpl.
    + split; [intros _; now exists (material_name m) | reflexivity].
    + split; [discriminate|].
      intros (s' & H1 & H2). congruence.
  - intros Habs. rewrite (dict_get_absent _ _ _ Habs). reflexivity.
Qed.

(** ** Decoding of the request bodies *)






Lemma Si_27_saturation :
  Spec.saturationCurrent (Spec.deriveParameters Si 27 5.1) = 1e-12.
Proof.
  simpl. replace ((27 - 27) / 10) with 0 by lra.
  rewrite Rpower_O by lra. lra.
Qed.

(** A body with none of the keys ["material"], ["temp"] and ["voltage"] is
    measured as silicon at 27 degrees and 0 volts: the answer has a zero
    current, a zero power, the status ["OPTIMAL"], the saturation current
    1e-12 and the breakdown voltage -50. *)
Theorem measure_request_without_fields
    (float_of_str : string -> option R) (data : dict) (noise : R) :
  ~ In "material" (map fst data) ->
  ~ In "temp" (map fst data) ->
  ~ In "voltage" (map fst data) ->
  exists r : measure_response,
    measure_request float_of_str data noise = inr r /\
    m_voltage r = 0 /\
    m_current r = 0 /\
    m_power r = 0 /\
    m_status r = "OPTIMAL" /\
    m_saturation r = 1e-12 /\
    m_breakdown r = -50.
Proof.
  intros Hm Ht Hv.
  unfold measure_request.
  rewrite !dict_get_absent by assumption.
  cbn [py_float reply_bind].
  pose proof (measure_ok Si 27 0 noise) as E; cbv zeta in E.
  change (PyStr (material_name Si)) with (PyStr "Si") in E.
  rewrite E; cbn [lift Ok].
  assert (Ei : Spec.evaluate (Spec.deriveParameters Si 27 5.1) 0 = 0).
  { rewrite evaluate_above_breakdown by (simpl; lra).
    unfold Spec.shockleyCurrent, Spec.exponent_of, Rdiv.
    rewrite Rmult_0_l, clip_zero, exp_0. ring. }
  eexists; split; [reflexivity|].
  cbn [m_voltage m_current m_power m_status m_saturation m_breakdown].
  rewrite Ei, Si_27_saturation.
  replace (0 * (0 + 0 * noise)) with 0 by ring.
  rewrite Rabs_R0.
  repeat split; try reflexivity; try ring; try (simpl; lra).
  destruct (Rle_dec 0 (Spec.limit_of Si)) as [_|H]; [reflexivity|].
  exfalso; apply H; simpl; lra.
Qed.

Lemma measure_request_without_fields_witness :
  ~ In "material" (map fst [("note", PyStr "probe")]) /\
  ~ In "temp" (map fst [("note", PyStr "probe")]) /\
  ~ In "voltage" (map fst [("note", PyStr "probe")]) /\
  exists r : measure_response,
    measure_request (fun _ => None) [("note", PyStr "probe")] 0.001 = inr r /\
    m_status r = "OPTIMAL".
Proof.
  assert (H : forall k : string, k <> "note" ->
              ~ In k (map fst [("note", PyStr "probe")])).
  { intros k Hk [E|[]]; simpl in E; congruence. }
  split; [apply H; discriminate|].
  split; [apply H; discriminate|].
  split; [apply H; discriminate|].
  destruct (measure_request_without_fields (fun _ => None)
              [("note", PyStr "probe")] 0.001)
    as (r & Hr & _ & _ & _ & Hs & _); try (apply H; discriminate).
  exists r; split; [exact Hr | exact Hs].
Defined.

Lemma sweep_fields (m : Material) (start end_ temp : R) :
  exists r : sweep_response,
    sweep (PyStr (material_name m)) start end_ temp = Ok r /\
    sw_saturation r
    = Spec.saturationCurrent (Spec.deriveParameters m temp 5.1) /\
    sw_breakdown r
    = Spec.breakdownVoltage (Spec.deriveParameters m temp 5.1).
Proof.
  eexists; split; [apply sweep_ok|].
  split; reflexivity.
Qed.

(** A body with none of the keys ["material"], ["start"], ["end"] and
    ["temp"] is swept as silicon at 27 degrees from -2 to 1.5 volts: 300
    samples, the first reported at -2 and the last at 1.5 exactly, with the
    saturation current 1e-12 and the breakdown voltage -50. *)
Theorem sweep_request_without_fields
    (float_of_str : string -> option R) (data : dict) :
  ~ In "material" (map fst data) ->
  ~ In "start" (map fst data) ->
  ~ In "end" (map fst data) ->
  ~ In "temp" (map fst data) ->
  exists (r : sweep_response) (first last : sample),
    sweep_request float_of_str data = inr r /\
    List.length (sw_data r) = 300%nat /\
    nth_error (sw_data r) 0 = Some first /\
    nth_error (sw_data r) 299 = Some last /\
    s_v first = -2 /\
    s_v last = 1.5 /\
    sw_saturation r = 1e-12 /\
    sw_breakdown r = -50.
Proof.
  intros Hm Hs He Ht.
  unfold sweep_request.
  rewrite !dict_get_absent by assumption.
  cbn [py_float reply_bind].
  destruct (sweep_data_nth Si (-2) 1.5 27 0) as (r & Hr & Hlen & H0); [lia|].
  destruct (sweep_data_nth Si (-2) 1.5 27 299) as (r' & Hr' & _ & H1); [lia|].
  rewrite Hr in Hr'; injection Hr' as <-.
  change (PyStr (material_name Si)) with (PyStr "Si") in Hr.
  rewrite Hr; cbn [lift].
  eexists r, _, _.
  split; [reflexivity|]. split; [exact Hlen|].
  split; [exact H0|]. split; [exact H1|].
  cbn [s_v].
  destruct (sweep_fields Si (-2) 1.5 27) as (r2 & Hr2 & Hsat & Hbd).
  change (PyStr (material_name Si)) with (PyStr "Si") in Hr2.
  rewrite Hr in Hr2; injection Hr2 as <-.
  rewrite Hsat, Hbd.
  split; [|split; [|split]].
  - replace (-2 + INR 0 * ((1.5 - -2) / 299)) with (IZR (-2000) / 1000)
      by (simpl; lra).
    rewrite py_round_3_millis; lra.
  - replace (-2 + INR 299 * ((1.5 - -2) / 299)) with (IZR 1500 / 1000)
      by (rewrite INR_299; lra).
    rewrite py_round_3_millis; lra.
  - apply Si_27_saturation.
  - simpl; lra.
Qed.

Lemma sweep_request_without_fields_witness :
  ~ In "material" (map fst [("note", PyStr "probe")]) /\
  ~ In "start" (map fst [("note", PyStr "probe")]) /\
  ~ In "end" (map fst [("note", PyStr "probe")]) /\
  ~ In "temp" (map fst [("note", PyStr "probe")]) /\
  exists r : sweep_response,
    sweep_request (fun _ => None) [("note", PyStr "probe")] = inr r /\
    List.length (sw_data r) = 300%nat.
Proof.
  assert (H : forall k : string, k <> "note" ->
              ~ In k (map fst [("note", PyStr "probe")])).
  { intros k Hk [E|[]]; simpl in E; congruence. }
  split; [apply H; discriminate|].
  split; [apply H; discriminate|].
  split; [apply H; discriminate|].
  split; [apply H; discriminate|].
  destruct (sweep_request_without_fields (fun _ => None)
              [("note", PyStr "probe")])
    as (r & _ & _ & Hr & Hlen & _); try (apply H; discriminate).
  exists r; split; [exact Hr | exact Hlen].
Defined.
